(** * Loan-Prediction-App: the encoding-and-inference pipeline of [loan_web.py]

    A shallow embedding of [src/loan_web.py].  The script is a Streamlit
    page: every user interaction re-executes the module from the top, the
    memo table of [@st.cache_data] being the only state that survives from
    one execution to the next.  Calls into Streamlit that display something
    ([st.image], [st.subheader], [st.error], [st.success]), the access to the
    pickle file and the call of the classifier are recorded as events, in
    program order; Python exceptions are explicit outcomes. *)

From stdpp Require Import gmap strings list.

Local Open Scope Z_scope.

(** ** Python exceptions *)

(** The exception classes the script can meet.  The first group derives from
    [Exception]; the last three derive from [BaseException] only. *)
Inductive ExcClass : Type :=
| FileNotFoundError
| IndexError
| ValueError
| AttributeError
| OtherException (name : string)
| KeyboardInterrupt
| SystemExit
| GeneratorExit.

(** An exception instance: its class and what [str(e)] gives. *)
Record PyExc : Type := mkExc { exc_class : ExcClass; exc_str : string }.

(** [isinstance(e, Exception)], what [except Exception] tests. *)
Definition isinstance_Exception (e : PyExc) : bool :=
  match exc_class e with
  | KeyboardInterrupt | SystemExit | GeneratorExit => false
  | _ => true
  end.

(** [isinstance(e, FileNotFoundError)], what [except FileNotFoundError] tests. *)
Definition isinstance_FileNotFoundError (e : PyExc) : bool :=
  match exc_class e with
  | FileNotFoundError => true
  | _ => false
  end.

(** ** Data *)

(** [pd.DataFrame]: the column labels and the rows.  Every cell of this
    script is a Python [int] (the select boxes range over [range(len(..))]
    and the number inputs are created with [value=0]). *)
Record DataFrame : Type := mkFrame { columns : list string; rows : list (list Z) }.

(** What [model.predict(features)] does: it returns the batch of labels or
    raises. *)
Inductive Outcome (A : Type) : Type :=
| Returns (a : A)
| Raises (e : PyExc).
Arguments Returns {A} a.
Arguments Raises {A} e.

(** The unpickled classifier, opaque but for its [predict] method. *)
Record Model : Type := mkModel { predict : DataFrame -> Outcome (list Z) }.

(** ** Events and the monad of the script *)

Inductive Event : Type :=
| open_image                       (* Image.open(image_path) *)
| st_image                         (* st.image(img1, ...) *)
| st_subheader (body : string)
| st_error (body : string)
| st_success (body : string)
| open_pickle                      (* open(pickle_path, "rb") *)
| model_predict (features : DataFrame).  (* model.predict(features) is entered *)

(** A computation: the events it produced, then its outcome. *)
Definition M (A : Type) : Type := (list Event * Outcome A)%type.

#[export] Instance M_ret : MRet M := fun A a => ([], Returns a).

#[export] Instance M_bind : MBind M := fun A B k c =>
  match c with
  | (evs, Returns a) => let '(evs', r) := k a in (evs ++ evs', r)
  | (evs, Raises e) => (evs, Raises e)
  end.

Definition emit (ev : Event) : M unit := ([ev], Returns tt).

Definition raise {A : Type} (e : PyExc) : M A := ([], Raises e).

(** [try: body / except C as e: handler e], [isinstance] being the test
    for class [C].  Events of [body] before the exception stay. *)
Definition try_except {A : Type} (body : M A) (isinstance : PyExc -> bool)
    (handler : PyExc -> M A) : M A :=
  match body with
  | (evs, Raises e) =>
      if isinstance e then let '(evs', r) := handler e in (evs ++ evs', r)
      else body
  | _ => body
  end.

Definition events {A : Type} (c : M A) : list Event := c.1.
Definition outcome {A : Type} (c : M A) : Outcome A := c.2.

(** The feature records handed to [model.predict], in call order. *)
Fixpoint predict_calls (evs : list Event) : list DataFrame :=
  match evs with
  | [] => []
  | model_predict f :: evs' => f :: predict_calls evs'
  | _ :: evs' => predict_calls evs'
  end.

(** How many times the pickle file was opened. *)
Fixpoint pickle_reads (evs : list Event) : nat :=
  match evs with
  | [] => O
  | open_pickle :: evs' => S (pickle_reads evs')
  | _ :: evs' => pickle_reads evs'
  end.

(** ** Python built-ins used by the script *)

(** [not s] for a [str]: true exactly for the empty string. *)
Definition py_not (s : string) : bool :=
  match s with
  | EmptyString => true
  | String _ _ => false
  end.

(** [d.get(k, default)]. *)
Definition dict_get (d : gmap Z Z) (k : Z) (dflt : Z) : Z :=
  default dflt (d !! k).

(** [l[0]]: [IndexError] on an empty sequence. *)
Definition getitem0 (l : list Z) : M Z :=
  match l with
  | x :: _ => mret x
  | [] => raise (mkExc IndexError "list index out of range")
  end.

(** [s.isspace()] on ASCII text: tab, line feed, vertical tab, form feed,
    carriage return, the four separators 28-31 and the space. *)
Definition is_space (c : Ascii.ascii) : bool :=
  let n := Ascii.nat_of_ascii c in
  ((9 <=? n) && (n <=? 13) || (28 <=? n) && (n <=? 32))%nat.

(** True when there is at least one character and all are whitespace. *)
Definition isspace (s : string) : bool :=
  negb (py_not s) && forallb is_space (String.list_ascii_of_string s).

(** [sub in s] on strings. *)
Fixpoint str_contains (sub s : string) : bool :=
  String.prefix sub s ||
  match s with
  | EmptyString => false
  | String _ s' => str_contains sub s'
  end.

(** [pd.DataFrame(values, columns=columns)]: [ValueError] when a row does
    not have one cell per column. *)
Definition pd_DataFrame (values : list (list Z)) (cols : list string) : M DataFrame :=
  if forallb (fun r => Nat.eqb (length r) (length cols)) values
  then mret (mkFrame cols values)
  else raise (mkExc ValueError "columns passed do not match the passed data").

(** ** The script *)

(** Line 80. *)
Definition duration_map : gmap Z Z :=
  {[ 0 := 60; 1 := 180; 2 := 240; 3 := 360; 4 := 480 ]}.

(** Line 81: [duration_map.get(duration, 60)]. *)
Definition duration_value (duration : Z) : Z := dict_get duration_map duration 60.

(** The files next to the script, as one execution finds them. *)
Inductive PickleFile : Type :=
| NoFile                      (* model.pkl does not exist *)
| Unpicklable (e : PyExc)     (* opening or unpickling it raises [e] *)
| Pickled (m : Model).

Inductive ImageFile : Type :=
| NoImage                     (* bank.png does not exist *)
| BadImage (e : PyExc)        (* opening or resizing it raises [e] *)
| GoodImage.

Record World : Type := mkWorld { pickle_file : PickleFile; image_file : ImageFile }.

(** What the widgets of lines 45-88 return in one execution. *)
Record Widgets : Type := mkWidgets {
  account_no : string;     (* st.text_input("Account Number", max_chars=11) *)
  fn : string;             (* st.text_input("Full Name", max_chars=250) *)
  gender : Z;
  marital : Z;
  dependents : Z;
  education : Z;
  employment : Z;
  mon_income : Z;          (* st.number_input(..., value=0, min_value=0) *)
  co_mon_income : Z;
  loan_amount : Z;
  duration : Z;
  area : Z;
  submit : bool            (* st.button("Submit") *)
}.

(** An object of the Python heap: which allocation it is, and its state.
    [obj_id] numbers the model objects in the order the process builds
    them, so two references are to the identical object exactly when the
    numbers agree. *)
Record Obj : Type := mkObj { obj_id : nat; obj_model : Model }.

(** Line 21: [pickle.load(open(pickle_path, "rb"))].  The object it builds
    is the first model object of the process. *)
Definition pickle_load (w : World) : M Obj :=
  emit open_pickle;;
  match pickle_file w with
  | NoFile => raise (mkExc FileNotFoundError "[Errno 2] No such file or directory: 'model.pkl'")
  | Unpicklable e => raise e
  | Pickled m => mret (mkObj 0 m)
  end.

Definition model_not_found_msg : string :=
  "Model file not found. Ensure 'model.pkl' exists in the same directory as the script.".

(** Lines 20-24, the body of [load_model]: [None] when the file is not found. *)
Definition load_model_body (w : World) : M (option Obj) :=
  try_except
    (m ← pickle_load w; mret (Some m))
    isinstance_FileNotFoundError
    (fun _ => emit (st_error model_not_found_msg);; mret None).

(** The elements that [@st.cache_data] records while the body runs, to
    show them again on every hit. *)
Definition is_element (ev : Event) : bool :=
  match ev with
  | st_image | st_subheader _ | st_error _ | st_success _ => true
  | _ => false
  end.

(** Line 12, [@st.cache_data] on a function without arguments: the memo
    table holds at most one entry.  An entry keeps the value the body
    returned, pickled ([None] included), the elements the body showed, and
    how many times it has been read. *)
Record CacheEntry : Type := mkEntry {
  cached_value : option Model;
  cached_messages : list Event;
  cache_hits : nat
}.

Definition Cache : Type := option CacheEntry.

(** A miss runs the body, returns what it returned and stores it; a call
    that raises stores nothing.  A hit does not run the body: it shows the
    recorded elements again and returns a new object, unpickled from the
    entry ([None] unpickles to [None]). *)
Definition load_model (w : World) (c : Cache) : M (option Obj) * Cache :=
  match c with
  | Some entry =>
      ((cached_messages entry,
        Returns (mkObj (S (cache_hits entry)) <$> cached_value entry)),
       Some (mkEntry (cached_value entry) (cached_messages entry)
               (S (cache_hits entry))))
  | None =>
      let r := load_model_body w in
      match outcome r with
      | Returns v =>
          (r, Some (mkEntry (obj_model <$> v) (List.filter is_element (events r)) 0))
      | Raises _ => (r, None)
      end
  end.

Definition image_not_found_msg : string :=
  "Image file not found. Ensure 'bank.png' exists in the same directory as the script.".

(** Lines 35-40. *)
Definition logo (w : World) : M unit :=
  try_except
    (emit open_image;;
     match image_file w with
     | NoImage => raise (mkExc FileNotFoundError "[Errno 2] No such file or directory: 'bank.png'")
     | BadImage e => raise e
     | GoodImage => emit st_image
     end)
    isinstance_FileNotFoundError
    (fun _ => emit (st_error image_not_found_msg)).

(** Line 90: [not account_no or not fn]. *)
Definition missing_required (ui : Widgets) : bool :=
  py_not (account_no ui) || py_not (fn ui).

Definition required_fields_msg : string :=
  "Please fill in all required fields (Account Number and Full Name).".

Definition model_not_loaded_msg : string :=
  "The prediction model is not loaded. Please ensure the model file is available.".

(** Lines 96-99. *)
Definition values (ui : Widgets) : list (list Z) :=
  [[ gender ui; marital ui; dependents ui; education ui; employment ui;
     mon_income ui; co_mon_income ui; loan_amount ui;
     duration_value (duration ui); area ui ]].

(** Lines 102-104. *)
Definition feature_columns : list string :=
  [ "Gender"; "Married"; "Dependents"; "Education"; "Self_Employed";
    "ApplicantIncome"; "CoapplicantIncome"; "LoanAmount";
    "Loan_Amount_Term"; "Property_Area" ]%string.

(** Lines 114-117 and 119-122, the two f-strings. *)
Definition not_eligible_msg (fn account_no : string) : string :=
  "Hello " +:+ fn +:+ ", Account Number: " +:+ account_no +:+ ". " +:+
  "Based on our calculations, you are not eligible for the loan.".

Definition eligible_msg (fn account_no : string) : string :=
  "Hello " +:+ fn +:+ ", Account Number: " +:+ account_no +:+ ". " +:+
  "Congratulations! You are eligible for the loan.".

(** Lines 113-122: the notice shown for a prediction result. *)
Definition present (result : Z) (fn account_no : string) : M unit :=
  if bool_decide (result = 0)
  then emit (st_error (not_eligible_msg fn account_no))
  else emit (st_success (eligible_msg fn account_no)).

(** Line 124. *)
Definition prediction_error_msg (e : PyExc) : string :=
  "An error occurred during prediction: " +:+ exc_str e.

(** Lines 108-124: the [try] around the call of the classifier. *)
Definition infer (m : Model) (features : DataFrame) (fn account_no : string) : M unit :=
  try_except
    (prediction ← (emit (model_predict features);; ([], predict m features));
     result ← getitem0 prediction;
     present result fn account_no)
    isinstance_Exception
    (fun e => emit (st_error (prediction_error_msg e))).

(** Lines 90-124: what happens when the button was pressed.  [model] is the
    module-level variable of line 27. *)
Definition on_submit (model : option Model) (ui : Widgets) : M unit :=
  if missing_required ui then
    emit (st_error required_fields_msg)
  else
    match model with
    | None => emit (st_error model_not_loaded_msg)
    | Some m =>
        features ← pd_DataFrame (values ui) feature_columns;
        infer m features (fn ui) (account_no ui)
    end.

(** Line 42. *)
Definition page_title : string := "Bank Loan Prediction using Machine Learning".

(** Lines 29-124. *)
Definition run (w : World) (model : option Model) (ui : Widgets) : M unit :=
  logo w;;
  emit (st_subheader page_title);;
  if submit ui then on_submit model ui else mret tt.

(** One execution of the module: line 27, then lines 127-128.  [run] reads
    the module-level [model] for what the object is, not for which one. *)
Definition script (w : World) (c : Cache) (ui : Widgets) : M unit * Cache :=
  let '(loaded, c') := load_model w c in
  (model ← loaded; run w (obj_model <$> model) ui, c').

(** The executions of one process: the memo table is threaded through, the
    files and the widget values may differ from one execution to the next. *)
Fixpoint session (c : Cache) (reruns : list (World * Widgets)) : list (M unit) :=
  match reruns with
  | [] => []
  | (w, ui) :: rest =>
      let '(r, c') := script w c ui in
      r :: session c' rest
  end.

(** A model that answers every batch with the same labels. *)
Definition const_model (labels : list Z) : Model := mkModel (fun _ => Returns labels).

(** A model whose [predict] always raises [e]. *)
Definition raising_model (e : PyExc) : Model := mkModel (fun _ => Raises e).

(** End-to-end scenario 1 of the specification. *)
Definition asha : Widgets :=
  mkWidgets "12345678901" "Asha" 1 1 1 1 0 5000 0 100 3 2 true.

Definition good_world (m : Model) : World := mkWorld (Pickled m) GoodImage.


(** Scenario 3: the name left empty. *)
Definition nameless : Widgets :=
  mkWidgets "12345678901" "" 1 1 1 1 0 5000 0 100 3 2 true.

(** A negative income, which the number input itself never returns. *)
Definition overdrawn : Widgets :=
  mkWidgets "12345678901" "Asha" 1 1 1 1 0 (-5000) 0 100 3 2 true.

(** Blank account number and name. *)
Definition blank : Widgets :=
  mkWidgets "   " " " 1 1 1 1 0 5000 0 100 3 2 true.

(** What every execution does once the memo table holds [None]: it starts
    with the model-not-found notice, shown again by the hit. *)
Definition refuses_inference (rerun : World * Widgets) (r : M unit) : Prop :=
  (exists rest, events r = st_error model_not_found_msg :: rest) /\
  pickle_reads (events r) = O /\
  predict_calls (events r) = [] /\
  (outcome (logo rerun.1) = Returns tt ->
   submit rerun.2 = true ->
   account_no rerun.2 <> "" ->
   fn rerun.2 <> "" ->
   r = (st_error model_not_found_msg :: events (logo rerun.1) ++
          [st_subheader page_title; st_error model_not_loaded_msg],
        Returns tt)).

(** ** The select boxes and the other widgets *)

(** Lines 49, 53, 57, 61, 65, 78 and 84: the labels of the select boxes. *)
Definition gender_display : list string := ["Female"; "Male"]%string.
Definition mar_display : list string := ["No"; "Yes"]%string.
Definition dep_display : list string := ["No"; "One"; "Two"; "More than Two"]%string.
Definition edu_display : list string := ["Not Graduate"; "Graduate"]%string.
Definition emp_display : list string := ["No"; "Yes"]%string.
Definition dur_display : list string :=
  ["2 Month"; "6 Month"; "8 Month"; "1 Year"; "16 Month"]%string.
Definition area_display : list string := ["Rural"; "Semi-Urban"; "Urban"]%string.

Definition select_boxes : list (list string) :=
  [ gender_display; mar_display; dep_display; edu_display; emp_display;
    dur_display; area_display ].

(** [range(len(display))], the options of a select box. *)
Definition range_len (display : list string) : list Z :=
  seqZ 0 (Z.of_nat (length display)).

(** [t[x]] on a tuple: a negative index counts from the end, an index out
    of range raises [IndexError]. *)
Definition tuple_getitem (t : list string) (x : Z) : Outcome string :=
  let n := Z.of_nat (length t) in
  let i := if x <? 0 then x + n else x in
  if (0 <=? i) && (i <? n) then
    match t !! Z.to_nat i with
    | Some label => Returns label
    | None => Raises (mkExc IndexError "tuple index out of range")
    end
  else Raises (mkExc IndexError "tuple index out of range").

(** [format_func=lambda x: display[x]]. *)
Definition format_func (display : list string) (x : Z) : Outcome string :=
  tuple_getitem display x.

(** What the widget calls of lines 45-85 promise of the values they return:
    [max_chars] for the text inputs, one of the options for a select box,
    [min_value=0] for the number inputs. *)
Definition offered (display : list string) (x : Z) : bool :=
  bool_decide (x ∈ range_len display).

Definition widget_contract (ui : Widgets) : bool :=
  (String.length (account_no ui) <=? 11)%nat &&
  (String.length (fn ui) <=? 250)%nat &&
  offered gender_display (gender ui) &&
  offered mar_display (marital ui) &&
  offered dep_display (dependents ui) &&
  offered edu_display (education ui) &&
  offered emp_display (employment ui) &&
  (0 <=? mon_income ui) && (0 <=? co_mon_income ui) && (0 <=? loan_amount ui) &&
  offered dur_display (duration ui) &&
  offered area_display (area ui).

(** A row within the ranges of the ten columns the labels stand for. *)
Definition row_in_schema (row : list Z) : bool :=
  match row with
  | [g; ma; de; ed; em; ai; ci; la; term; ar] =>
      (0 <=? g) && (g <=? 1) && (0 <=? ma) && (ma <=? 1) &&
      (0 <=? de) && (de <=? 3) && (0 <=? ed) && (ed <=? 1) &&
      (0 <=? em) && (em <=? 1) &&
      (0 <=? ai) && (0 <=? ci) && (0 <=? la) &&
      bool_decide (term ∈ [60; 180; 240; 360; 480]) &&
      (0 <=? ar) && (ar <=? 2)
  | _ => false
  end.

(** The notices among the events: [st.error] and [st.success]. *)
Definition is_notice (ev : Event) : bool :=
  match ev with
  | st_error _ | st_success _ => true
  | _ => false
  end.

Definition notices (evs : list Event) : list Event := List.filter is_notice evs.

(** The part of [run] after the title, lines 88-124. *)
Definition after_title (model : option Model) (ui : Widgets) : M unit :=
  if submit ui then on_submit model ui else mret tt.

(** * Properties *)

(** ** Evaluation on the scenarios of the specification *)

Example duration_value_3 : duration_value 3 = 360.
Proof. reflexivity. Qed.

Example duration_value_7 : duration_value 7 = 60.
Proof. reflexivity. Qed.

Example scenario_1 :
  script (good_world (const_model [1])) None asha =
  (([ open_pickle; open_image; st_image;
      st_subheader "Bank Loan Prediction using Machine Learning";
      model_predict (mkFrame feature_columns [[1; 1; 1; 1; 0; 5000; 0; 100; 360; 2]]);
      st_success "Hello Asha, Account Number: 12345678901. Congratulations! You are eligible for the loan." ],
    Returns tt),
   Some (mkEntry (Some (const_model [1])) [] 0)).
Proof. reflexivity. Qed.

Example scenario_2 :
  events (script (good_world (const_model [0])) None asha).1 =
  [ open_pickle; open_image; st_image;
    st_subheader "Bank Loan Prediction using Machine Learning";
    model_predict (mkFrame feature_columns [[1; 1; 1; 1; 0; 5000; 0; 100; 360; 2]]);
    st_error "Hello Asha, Account Number: 12345678901. Based on our calculations, you are not eligible for the loan." ].
Proof. reflexivity. Qed.

Example scenario_3 :
  events (script (good_world (const_model [1])) None nameless).1 =
  [ open_pickle; open_image; st_image;
    st_subheader "Bank Loan Prediction using Machine Learning";
    st_error required_fields_msg ].
Proof. reflexivity. Qed.

Example scenario_4 :
  session None [ (mkWorld NoFile GoodImage, asha); (good_world (const_model [1]), asha) ] =
  [ ([ open_pickle; st_error model_not_found_msg; open_image; st_image;
       st_subheader "Bank Loan Prediction using Machine Learning";
       st_error model_not_loaded_msg ], Returns tt);
    ([ st_error model_not_found_msg; open_image; st_image;
       st_subheader "Bank Loan Prediction using Machine Learning";
       st_error model_not_loaded_msg ], Returns tt) ].
Proof. reflexivity. Qed.

(** ** Strings *)

Lemma py_not_true (s : string) : py_not s = true <-> s = "".
Proof. destruct s; simpl; split; congruence. Qed.

Lemma py_not_false (s : string) : py_not s = false <-> s <> "".
Proof. destruct s; simpl; split; congruence. Qed.

Lemma string_prefix_app (s b : string) : String.prefix s (s +:+ b) = true.
Proof.
  induction s as [|c s IH]; simpl.
  - now destruct b.
  - destruct (Ascii.ascii_dec c c); [exact IH | congruence].
Qed.

Lemma str_contains_prefix (s t : string) :
  String.prefix s t = true -> str_contains s t = true.
Proof. intros H. destruct t; cbn [str_contains]; rewrite H; reflexivity. Qed.

Lemma str_contains_here (s b : string) : str_contains s (s +:+ b) = true.
Proof. apply str_contains_prefix, string_prefix_app. Qed.

Lemma str_contains_skip (a s t : string) :
  str_contains s t = true -> str_contains s (a +:+ t) = true.
Proof.
  intros H. induction a as [|c a IH]; simpl; [exact H |].
  rewrite IH. apply orb_true_r.
Qed.

(** [str_contains] finds every occurrence: text before, the needle, text
    after. *)
Lemma str_contains_infix (a s b : string) : str_contains s (a +:+ s +:+ b) = true.
Proof. apply str_contains_skip, str_contains_here. Qed.

Lemma string_prefix_inv (s t : string) :
  String.prefix s t = true -> exists b, t = s +:+ b.
Proof.
  revert t. induction s as [|c s IH]; intros t H.
  - exists t. reflexivity.
  - destruct t as [|c' t]; simpl in H; [discriminate |].
    destruct (Ascii.ascii_dec c c') as [<- |]; [| discriminate].
    destruct (IH t H) as [b ->]. exists b. reflexivity.
Qed.

(** [str_contains] is the substring relation. *)
Lemma str_contains_spec (s t : string) :
  str_contains s t = true <-> exists a b, t = a +:+ s +:+ b.
Proof.
  split.
  - induction t as [|c t IH]; cbn [str_contains]; rewrite orb_true_iff.
    + intros [H | H]; [| discriminate].
      destruct (string_prefix_inv _ _ H) as [b ->]. exists "", b. reflexivity.
    + intros [H | H].
      * destruct (string_prefix_inv _ _ H) as [b ->]. exists "", b. reflexivity.
      * destruct (IH H) as (a & b & ->). exists (String c a), b. reflexivity.
  - intros (a & b & ->). apply str_contains_infix.
Qed.

(** ** The monad *)

Lemma predict_calls_app (l1 l2 : list Event) :
  predict_calls (l1 ++ l2) = predict_calls l1 ++ predict_calls l2.
Proof.
  induction l1 as [|ev l1 IH]; simpl; [reflexivity |].
  destruct ev; simpl; rewrite IH; reflexivity.
Qed.

Lemma pickle_reads_app (l1 l2 : list Event) :
  pickle_reads (l1 ++ l2) = (pickle_reads l1 + pickle_reads l2)%nat.
Proof.
  induction l1 as [|ev l1 IH]; simpl; [reflexivity |].
  destruct ev; simpl; rewrite IH; reflexivity.
Qed.

(** ** Duration Resolver *)

Lemma duration_value_outside (d : Z) : ~ (0 <= d <= 4) -> duration_value d = 60.
Proof.
  intros Hd. unfold duration_value, dict_get, duration_map.
  rewrite !lookup_insert_ne by lia.
  rewrite lookup_singleton_ne by lia. reflexivity.
Qed.

(** C4. Indices 0, 1, 2, 3, 4 resolve to 60, 180, 240, 360, 480; every other
    index resolves to the default 60; the resolver is total and its result is
    always one of the five terms. *)
Theorem C4_duration_resolver :
  duration_value 0 = 60 /\ duration_value 1 = 180 /\ duration_value 2 = 240 /\
  duration_value 3 = 360 /\ duration_value 4 = 480 /\
  (forall d : Z, ~ (0 <= d <= 4) -> duration_value d = 60) /\
  (forall d : Z, In (duration_value d) [60; 180; 240; 360; 480]).
Proof.
  repeat split; try reflexivity.
  - exact duration_value_outside.
  - intros d.
    destruct (decide (0 <= d <= 4)) as [Hin | Hout].
    + assert (d = 0 \/ d = 1 \/ d = 2 \/ d = 3 \/ d = 4) as Hd by lia.
      destruct Hd as [-> | [-> | [-> | [-> | ->]]]]; simpl; tauto.
    + rewrite (duration_value_outside d Hout). simpl; tauto.
Qed.

(** ** Decision Presenter *)

Lemma not_eligible_msg_contains (fn account_no : string) :
  str_contains fn (not_eligible_msg fn account_no) = true /\
  str_contains account_no (not_eligible_msg fn account_no) = true /\
  str_contains "not eligible" (not_eligible_msg fn account_no) = true.
Proof.
  unfold not_eligible_msg. repeat split.
  - apply str_contains_infix.
  - do 3 apply str_contains_skip. apply str_contains_here.
  - do 5 apply str_contains_skip. reflexivity.
Qed.

Lemma eligible_msg_contains (fn account_no : string) :
  str_contains fn (eligible_msg fn account_no) = true /\
  str_contains account_no (eligible_msg fn account_no) = true /\
  str_contains "eligible" (eligible_msg fn account_no) = true /\
  str_contains "Congratulations" (eligible_msg fn account_no) = true.
Proof.
  unfold eligible_msg. repeat split.
  - apply str_contains_infix.
  - do 3 apply str_contains_skip. apply str_contains_here.
  - do 5 apply str_contains_skip. reflexivity.
  - do 5 apply str_contains_skip. reflexivity.
Qed.

Lemma present_zero (fn account_no : string) :
  present 0 fn account_no = ([st_error (not_eligible_msg fn account_no)], Returns tt).
Proof. reflexivity. Qed.

Lemma present_nonzero (result : Z) (fn account_no : string) :
  result <> 0 ->
  present result fn account_no = ([st_success (eligible_msg fn account_no)], Returns tt).
Proof. intros H. unfold present. rewrite bool_decide_eq_false_2 by exact H. reflexivity. Qed.

(** C5. For every name and account number the presenter shows, for label 0,
    an error notice that contains the name, the account number and
    "not eligible", and for label 1 a success notice that contains the name,
    the account number, "eligible" and "Congratulations"; for every label it
    shows exactly one notice and returns normally. *)
Theorem C5_presenter_messages (fn account_no : string) :
  (exists msg, present 0 fn account_no = ([st_error msg], Returns tt) /\
     str_contains fn msg = true /\ str_contains account_no msg = true /\
     str_contains "not eligible" msg = true) /\
  (exists msg, present 1 fn account_no = ([st_success msg], Returns tt) /\
     str_contains fn msg = true /\ str_contains account_no msg = true /\
     str_contains "eligible" msg = true /\
     str_contains "Congratulations" msg = true) /\
  (forall result : Z, exists notice,
     present result fn account_no = ([notice], Returns tt)).
Proof.
  split; [| split].
  - exists (not_eligible_msg fn account_no).
    split; [apply present_zero | apply not_eligible_msg_contains].
  - exists (eligible_msg fn account_no).
    split; [now apply present_nonzero | apply eligible_msg_contains].
  - intros result. unfold present. destruct (bool_decide (result = 0)); eauto.
Qed.

(** ** The submit handler *)

Lemma missing_required_true (ui : Widgets) :
  missing_required ui = true <-> account_no ui = "" \/ fn ui = "".
Proof.
  unfold missing_required. rewrite orb_true_iff, !py_not_true. reflexivity.
Qed.

Lemma missing_required_false (ui : Widgets) :
  missing_required ui = false <-> account_no ui <> "" /\ fn ui <> "".
Proof.
  unfold missing_required. rewrite orb_false_iff, !py_not_false. reflexivity.
Qed.

Lemma isspace_not_empty (s : string) : isspace s = true -> s <> "".
Proof. destruct s; simpl; [discriminate | congruence]. Qed.

(** The feature record of lines 96-105 is always built: one row of ten
    cells under ten labels. *)
Lemma build_features (ui : Widgets) :
  pd_DataFrame (values ui) feature_columns =
  ([], Returns (mkFrame feature_columns (values ui))).
Proof. reflexivity. Qed.

(** What the guarded call of the classifier does, by what [predict] does. *)
Lemma infer_returns (m : Model) (f : DataFrame) (fn account_no : string)
    (result : Z) (rest : list Z) :
  predict m f = Returns (result :: rest) ->
  infer m f fn account_no =
  (model_predict f :: events (present result fn account_no), Returns tt).
Proof.
  intros H. unfold infer, present. cbn. rewrite H. cbn.
  destruct (bool_decide (result = 0)); reflexivity.
Qed.

Lemma infer_empty_batch (m : Model) (f : DataFrame) (fn account_no : string) :
  predict m f = Returns [] ->
  infer m f fn account_no =
  ([model_predict f; st_error "An error occurred during prediction: list index out of range"],
   Returns tt).
Proof. intros H. unfold infer. cbn. rewrite H. reflexivity. Qed.

Lemma infer_caught (m : Model) (f : DataFrame) (fn account_no : string) (e : PyExc) :
  predict m f = Raises e -> isinstance_Exception e = true ->
  infer m f fn account_no =
  ([model_predict f; st_error (prediction_error_msg e)], Returns tt).
Proof. intros H He. unfold infer. cbn. rewrite H. cbn. rewrite He. reflexivity. Qed.

Lemma infer_propagates (m : Model) (f : DataFrame) (fn account_no : string) (e : PyExc) :
  predict m f = Raises e -> isinstance_Exception e = false ->
  infer m f fn account_no = ([model_predict f], Raises e).
Proof. intros H He. unfold infer. cbn. rewrite H. cbn. rewrite He. reflexivity. Qed.

(** The classifier is entered exactly once, whatever it does. *)
Lemma infer_predict_calls (m : Model) (f : DataFrame) (fn account_no : string) :
  predict_calls (events (infer m f fn account_no)) = [f].
Proof.
  destruct (predict m f) as [[|result rest]|e] eqn:H.
  - rewrite (infer_empty_batch _ _ _ _ H). reflexivity.
  - rewrite (infer_returns _ _ _ _ _ _ H). unfold present.
    destruct (bool_decide (result = 0)); reflexivity.
  - destruct (isinstance_Exception e) eqn:He.
    + rewrite (infer_caught _ _ _ _ _ H He). reflexivity.
    + rewrite (infer_propagates _ _ _ _ _ H He). reflexivity.
Qed.

Lemma on_submit_missing (model : option Model) (ui : Widgets) :
  missing_required ui = true ->
  on_submit model ui = ([st_error required_fields_msg], Returns tt).
Proof. intros H. unfold on_submit. rewrite H. reflexivity. Qed.

Lemma on_submit_not_loaded (ui : Widgets) :
  missing_required ui = false ->
  on_submit None ui = ([st_error model_not_loaded_msg], Returns tt).
Proof. intros H. unfold on_submit. rewrite H. reflexivity. Qed.

Lemma on_submit_loaded (m : Model) (ui : Widgets) :
  missing_required ui = false ->
  on_submit (Some m) ui =
  infer m (mkFrame feature_columns (values ui)) (fn ui) (account_no ui).
Proof.
  intros H. unfold on_submit. rewrite H, build_features. cbn.
  destruct (infer _ _ _ _). reflexivity.
Qed.

(** ** The page *)

Lemma logo_quiet (w : World) :
  predict_calls (events (logo w)) = [] /\ pickle_reads (events (logo w)) = O.
Proof.
  unfold logo. destruct (image_file w) as [|e|]; cbn; try (split; reflexivity).
  destruct (isinstance_FileNotFoundError e); split; reflexivity.
Qed.

(** When the logo code returns, the page goes on with the title and, if the
    button was pressed, the submit handler. *)
Lemma run_after_logo (w : World) (model : option Model) (ui : Widgets) :
  outcome (logo w) = Returns tt ->
  run w model ui =
  (events (logo w) ++ st_subheader page_title ::
     events (if submit ui then on_submit model ui else mret tt),
   outcome (if submit ui then on_submit model ui else mret tt)).
Proof.
  unfold run. destruct (logo w) as [levs [[]|e]]; cbn; [| discriminate].
  intros _. destruct (if submit ui then _ else _). reflexivity.
Qed.

Lemma run_logo_raises (w : World) (model : option Model) (ui : Widgets) (e : PyExc) :
  outcome (logo w) = Raises e -> run w model ui = logo w.
Proof.
  unfold run. destruct (logo w) as [levs [[]|e']]; cbn; [discriminate |].
  reflexivity.
Qed.

(** The classifier is entered only from the submit handler. *)
Lemma run_predict_calls (w : World) (model : option Model) (ui : Widgets) :
  predict_calls (events (run w model ui)) = [] \/
  predict_calls (events (run w model ui)) = predict_calls (events (on_submit model ui)).
Proof.
  destruct (outcome (logo w)) as [[]|e] eqn:Hl.
  - rewrite (run_after_logo _ _ _ Hl). cbn.
    rewrite predict_calls_app, (proj1 (logo_quiet w)). cbn.
    destruct (submit ui); [right | left]; reflexivity.
  - left. rewrite (run_logo_raises _ _ _ _ Hl). apply logo_quiet.
Qed.

(** ** Applicant Profile Builder *)

(** C1. For every input with a non-empty account number and name, submitted
    to a loaded model, the classifier receives exactly one feature record;
    it has ten columns, named and ordered Gender, Married, Dependents,
    Education, Self_Employed, ApplicantIncome, CoapplicantIncome, LoanAmount,
    Loan_Amount_Term, Property_Area, and one row holding the corresponding
    values in that order. *)
Theorem C1_feature_record_schema (w : World) (m : Model) (ui : Widgets) :
  outcome (logo w) = Returns tt ->
  submit ui = true ->
  account_no ui <> "" ->
  fn ui <> "" ->
  exists features : DataFrame,
    predict_calls (events (run w (Some m) ui)) = [features] /\
    columns features =
      [ "Gender"; "Married"; "Dependents"; "Education"; "Self_Employed";
        "ApplicantIncome"; "CoapplicantIncome"; "LoanAmount";
        "Loan_Amount_Term"; "Property_Area" ]%string /\
    length (columns features) = 10%nat /\
    rows features =
      [[ gender ui; marital ui; dependents ui; education ui; employment ui;
         mon_income ui; co_mon_income ui; loan_amount ui;
         duration_value (duration ui); area ui ]].
Proof.
  intros Hlogo Hsubmit Hacc Hfn.
  exists (mkFrame feature_columns (values ui)).
  split; [| repeat split].
  rewrite (run_after_logo _ _ _ Hlogo), Hsubmit. cbn.
  rewrite predict_calls_app, (proj1 (logo_quiet w)). cbn.
  rewrite on_submit_loaded by (apply missing_required_false; auto).
  apply infer_predict_calls.
Qed.

Lemma C1_feature_record_schema_witness :
  exists features : DataFrame,
    predict_calls (events (run (good_world (const_model [1])) (Some (const_model [1])) asha))
      = [features] /\
    columns features =
      [ "Gender"; "Married"; "Dependents"; "Education"; "Self_Employed";
        "ApplicantIncome"; "CoapplicantIncome"; "LoanAmount";
        "Loan_Amount_Term"; "Property_Area" ]%string /\
    length (columns features) = 10%nat /\
    rows features = [[1; 1; 1; 1; 0; 5000; 0; 100; 360; 2]].
Proof.
  apply (C1_feature_record_schema (good_world (const_model [1])) (const_model [1]) asha);
    [reflexivity | reflexivity | discriminate | discriminate].
Defined.

(** C2. For every input whose account number or name is the empty string,
    the classifier is never entered, whatever the files, the model and the
    button; the submit handler shows the required-fields notice and nothing
    else, and so does the page after its title when the button was pressed. *)
Theorem C2_empty_identity_rejected (w : World) (model : option Model) (ui : Widgets) :
  account_no ui = "" \/ fn ui = "" ->
  predict_calls (events (run w model ui)) = [] /\
  on_submit model ui = ([st_error required_fields_msg], Returns tt) /\
  (outcome (logo w) = Returns tt -> submit ui = true ->
   run w model ui =
   (events (logo w) ++ [st_subheader page_title; st_error required_fields_msg],
    Returns tt)).
Proof.
  intros Hempty. apply missing_required_true in Hempty.
  pose proof (on_submit_missing model ui Hempty) as Hsub.
  split; [| split].
  - destruct (run_predict_calls w model ui) as [H | H]; [exact H |].
    rewrite H, Hsub. reflexivity.
  - exact Hsub.
  - intros Hlogo Hsubmit.
    rewrite (run_after_logo _ _ _ Hlogo), Hsubmit, Hsub. reflexivity.
Qed.

Lemma C2_empty_identity_rejected_witness :
  fn nameless = "" /\
  predict_calls (events (run (good_world (const_model [1])) (Some (const_model [1])) nameless)) = [] /\
  run (good_world (const_model [1])) (Some (const_model [1])) nameless =
  ([open_image; st_image; st_subheader page_title; st_error required_fields_msg], Returns tt).
Proof.
  destruct (C2_empty_identity_rejected (good_world (const_model [1]))
              (Some (const_model [1])) nameless) as (Hcalls & _ & Hrun);
    [right; reflexivity |].
  split; [reflexivity | split; [exact Hcalls |]].
  apply Hrun; reflexivity.
Defined.

(** C3, as the specification states it, fails: a negative applicant income
    is not rejected.  It reaches the classifier unchanged and the applicant
    is shown the decision. *)
Lemma C3_negative_income_not_rejected :
  mon_income overdrawn < 0 /\
  on_submit (Some (const_model [1])) overdrawn =
  ([ model_predict (mkFrame feature_columns [[1; 1; 1; 1; 0; -5000; 0; 100; 360; 2]]);
     st_success (eligible_msg "Asha" "12345678901") ],
   Returns tt).
Proof. split; reflexivity. Qed.

(** C3, amended. The submit handler does not look at the applicant income,
    the co-applicant income or the loan amount: whatever their values, once
    the account number and the name are non-empty and a model is loaded, the
    handler shows no required-fields notice and hands the three numbers,
    unchanged, to the classifier in columns six to eight. *)
Theorem C3_numeric_fields_unchecked (m : Model) (ui : Widgets) :
  account_no ui <> "" ->
  fn ui <> "" ->
  ~ In (st_error required_fields_msg) (events (on_submit (Some m) ui)) /\
  predict_calls (events (on_submit (Some m) ui)) =
  [ mkFrame feature_columns
      [[ gender ui; marital ui; dependents ui; education ui; employment ui;
         mon_income ui; co_mon_income ui; loan_amount ui;
         duration_value (duration ui); area ui ]] ].
Proof.
  intros Hacc Hfn.
  rewrite on_submit_loaded by (apply missing_required_false; auto).
  split.
  - set (f := mkFrame feature_columns (values ui)).
    destruct (predict m f) as [[|result rest]|e] eqn:H.
    + rewrite (infer_empty_batch _ _ _ _ H). cbn. intros [? | [? | []]]; discriminate.
    + rewrite (infer_returns _ _ _ _ _ _ H). unfold present.
      destruct (bool_decide (result = 0)); cbn; intros [? | [? | []]]; discriminate.
    + destruct (isinstance_Exception e) eqn:He.
      * rewrite (infer_caught _ _ _ _ _ H He). cbn. intros [? | [? | []]]; discriminate.
      * rewrite (infer_propagates _ _ _ _ _ H He). cbn. intros [? | []]; discriminate.
  - apply infer_predict_calls.
Qed.

Lemma C3_numeric_fields_unchecked_witness :
  ~ In (st_error required_fields_msg) (events (on_submit (Some (const_model [1])) overdrawn)) /\
  predict_calls (events (on_submit (Some (const_model [1])) overdrawn)) =
  [ mkFrame feature_columns [[ 1; 1; 1; 1; 0; -5000; 0; 100; 360; 2 ]] ].
Proof.
  apply (C3_numeric_fields_unchecked (const_model [1]) overdrawn); discriminate.
Defined.

(** ** Inference Engine *)

(** C6, as the specification states it, fails: [except Exception] does not
    catch an exception that derives from [BaseException] only.  A
    [KeyboardInterrupt] raised inside [predict] leaves the handler, and the
    page, without any notice. *)
Lemma C6_interrupt_not_caught :
  on_submit (Some (raising_model (mkExc KeyboardInterrupt ""))) asha =
  ([ model_predict (mkFrame feature_columns [[1; 1; 1; 1; 0; 5000; 0; 100; 360; 2]]) ],
   Raises (mkExc KeyboardInterrupt "")) /\
  outcome (run (good_world (const_model [1]))
             (Some (raising_model (mkExc KeyboardInterrupt ""))) asha) =
  Raises (mkExc KeyboardInterrupt "").
Proof. split; reflexivity. Qed.

(** C6, amended. For every exception that derives from [Exception] and is
    raised by the classifier during prediction, the submit handler catches
    it, shows one error notice whose text is "An error occurred during
    prediction: " followed by the text of the exception, and returns
    normally. *)
Theorem C6_exception_caught (m : Model) (ui : Widgets) (e : PyExc) :
  account_no ui <> "" ->
  fn ui <> "" ->
  predict m (mkFrame feature_columns (values ui)) = Raises e ->
  isinstance_Exception e = true ->
  on_submit (Some m) ui =
  ([ model_predict (mkFrame feature_columns (values ui));
     st_error ("An error occurred during prediction: " +:+ exc_str e) ],
   Returns tt).
Proof.
  intros Hacc Hfn Hraise He.
  rewrite on_submit_loaded by (apply missing_required_false; auto).
  apply infer_caught; assumption.
Qed.

Lemma C6_exception_caught_witness :
  on_submit (Some (raising_model (mkExc ValueError "X has 10 features, but expected 11"))) asha =
  ([ model_predict (mkFrame feature_columns (values asha));
     st_error "An error occurred during prediction: X has 10 features, but expected 11" ],
   Returns tt).
Proof.
  apply (C6_exception_caught
           (raising_model (mkExc ValueError "X has 10 features, but expected 11"))
           asha (mkExc ValueError "X has 10 features, but expected 11"));
    [discriminate | discriminate | reflexivity | reflexivity].
Defined.

(** C9. For every first label [result] of the batch the classifier returns,
    the handler shows the not-eligible error notice if and only if [result]
    is 0; every other label, not only 1, gives the success notice. *)
Theorem C9_nonzero_label_is_positive (m : Model) (ui : Widgets)
    (result : Z) (rest : list Z) :
  account_no ui <> "" ->
  fn ui <> "" ->
  predict m (mkFrame feature_columns (values ui)) = Returns (result :: rest) ->
  exists notice,
    on_submit (Some m) ui =
    ([model_predict (mkFrame feature_columns (values ui)); notice], Returns tt) /\
    (notice = st_error (not_eligible_msg (fn ui) (account_no ui)) <-> result = 0) /\
    (notice = st_success (eligible_msg (fn ui) (account_no ui)) <-> result <> 0).
Proof.
  intros Hacc Hfn Hret.
  rewrite on_submit_loaded by (apply missing_required_false; auto).
  rewrite (infer_returns _ _ _ _ _ _ Hret).
  destruct (decide (result = 0)) as [-> | Hnz].
  - exists (st_error (not_eligible_msg (fn ui) (account_no ui))).
    rewrite present_zero. repeat split; try tauto; try discriminate.
  - exists (st_success (eligible_msg (fn ui) (account_no ui))).
    rewrite (present_nonzero _ _ _ Hnz). repeat split; try tauto; try discriminate.
Qed.

Lemma C9_nonzero_label_is_positive_witness :
  exists notice,
    on_submit (Some (const_model [7])) asha =
    ([model_predict (mkFrame feature_columns (values asha)); notice], Returns tt) /\
    (notice = st_error (not_eligible_msg "Asha" "12345678901") <-> 7 = 0) /\
    (notice = st_success (eligible_msg "Asha" "12345678901") <-> 7 <> 0).
Proof.
  apply (C9_nonzero_label_is_positive (const_model [7]) asha 7 []);
    [discriminate | discriminate | reflexivity].
Defined.

(** C10. Validation rejects exactly the inputs whose account number or name
    is the empty string; when both consist of whitespace only, the
    required-fields test is false and, with a model loaded, the handler
    enters the classifier with the feature record. *)
Theorem C10_blank_identity_accepted (m : Model) (ui : Widgets) :
  isspace (account_no ui) = true ->
  isspace (fn ui) = true ->
  (forall ui' : Widgets,
     missing_required ui' = true <-> account_no ui' = "" \/ fn ui' = "") /\
  missing_required ui = false /\
  on_submit (Some m) ui =
    infer m (mkFrame feature_columns (values ui)) (fn ui) (account_no ui) /\
  predict_calls (events (on_submit (Some m) ui)) =
    [mkFrame feature_columns (values ui)].
Proof.
  intros Hacc Hfn.
  assert (missing_required ui = false) as Hok
    by (apply missing_required_false; split; apply isspace_not_empty; assumption).
  split; [exact missing_required_true | split; [exact Hok | split]].
  - apply on_submit_loaded, Hok.
  - rewrite on_submit_loaded by exact Hok. apply infer_predict_calls.
Qed.

Lemma C10_blank_identity_accepted_witness :
  on_submit (Some (const_model [1])) blank =
  ([ model_predict (mkFrame feature_columns [[1; 1; 1; 1; 0; 5000; 0; 100; 360; 2]]);
     st_success "Hello  , Account Number:    . Congratulations! You are eligible for the loan." ],
   Returns tt).
Proof.
  destruct (C10_blank_identity_accepted (const_model [1]) blank) as (_ & _ & Hrun & _);
    [reflexivity | reflexivity |].
  rewrite Hrun. reflexivity.
Defined.

(** ** Model Repository *)

Lemma load_model_hit (w : World) (entry : CacheEntry) :
  load_model w (Some entry) =
  ((cached_messages entry,
    Returns (mkObj (S (cache_hits entry)) <$> cached_value entry)),
   Some (mkEntry (cached_value entry) (cached_messages entry) (S (cache_hits entry)))).
Proof. reflexivity. Qed.

Lemma load_model_absent (w : World) :
  pickle_file w = NoFile ->
  load_model w None =
  (([open_pickle; st_error model_not_found_msg], Returns None),
   Some (mkEntry None [st_error model_not_found_msg] 0)).
Proof.
  intros H. unfold load_model, load_model_body, pickle_load. rewrite H. reflexivity.
Qed.

Lemma load_model_present (w : World) (m : Model) :
  pickle_file w = Pickled m ->
  load_model w None =
  (([open_pickle], Returns (Some (mkObj 0 m))), Some (mkEntry (Some m) [] 0)).
Proof.
  intros H. unfold load_model, load_model_body, pickle_load. rewrite H. reflexivity.
Qed.





(** ** The process *)

(** An execution that hits the entry: the recorded elements, then the
    page with the cached value. *)
Lemma script_hit (w : World) (entry : CacheEntry) (ui : Widgets) :
  script w (Some entry) ui =
  ((cached_messages entry ++ events (run w (cached_value entry) ui),
    outcome (run w (cached_value entry) ui)),
   Some (mkEntry (cached_value entry) (cached_messages entry) (S (cache_hits entry)))).
Proof.
  unfold script. rewrite load_model_hit. cbn.
  replace (obj_model <$> (mkObj (S (cache_hits entry)) <$> cached_value entry))
    with (cached_value entry) by (destruct (cached_value entry); reflexivity).
  destruct (run w (cached_value entry) ui). reflexivity.
Qed.

Lemma run_not_loaded_quiet (w : World) (ui : Widgets) :
  pickle_reads (events (run w None ui)) = O /\
  predict_calls (events (run w None ui)) = [].
Proof.
  split.
  - destruct (outcome (logo w)) as [[]|e] eqn:Hl.
    + rewrite (run_after_logo _ _ _ Hl). cbn.
      rewrite pickle_reads_app, (proj2 (logo_quiet w)). cbn.
      destruct (submit ui); [| reflexivity].
      unfold on_submit. destruct (missing_required ui); reflexivity.
    + rewrite (run_logo_raises _ _ _ _ Hl). apply logo_quiet.
  - destruct (run_predict_calls w None ui) as [H | H]; [exact H |].
    rewrite H. unfold on_submit. destruct (missing_required ui); reflexivity.
Qed.

Lemma run_not_loaded (w : World) (ui : Widgets) :
  outcome (logo w) = Returns tt ->
  submit ui = true ->
  missing_required ui = false ->
  run w None ui =
  (events (logo w) ++ [st_subheader page_title; st_error model_not_loaded_msg],
   Returns tt).
Proof.
  intros Hl Hs Hm.
  rewrite (run_after_logo _ _ _ Hl), Hs, (on_submit_not_loaded _ Hm). reflexivity.
Qed.

Lemma session_not_loaded (hits : nat) (reruns : list (World * Widgets)) :
  Forall2 refuses_inference reruns
    (session (Some (mkEntry None [st_error model_not_found_msg] hits)) reruns).
Proof.
  revert hits. induction reruns as [|[w ui] reruns IH]; intros hits; [constructor |].
  cbn [session]. rewrite script_hit. cbn [cached_value cached_messages cache_hits].
  constructor; [| apply IH].
  unfold refuses_inference; cbn [fst snd events outcome app].
  destruct (run_not_loaded_quiet w ui) as [Hreads Hcalls].
  split; [eauto | split; [exact Hreads | split; [exact Hcalls |]]].
  intros Hl Hs Hacc Hfn.
  rewrite run_not_loaded; try assumption; [reflexivity |].
  apply missing_required_false; auto.
Qed.

(** C8. When the model file is absent, the first call of [load_model] opens
    the file once, shows the model-not-found notice and returns [None]
    without raising, and that outcome is what the memo table keeps.  Every
    later execution of the process, whatever the files and the widgets are
    by then, begins with the model-not-found notice, does not open the
    pickle file again and does not enter the classifier; a later submission
    with a non-empty account number and name shows, after it, the notice
    that the prediction model is not loaded. *)
Theorem C8_missing_model_file (w : World) (ui : Widgets)
    (reruns : list (World * Widgets)) :
  pickle_file w = NoFile ->
  exists entry : CacheEntry,
    load_model w None =
      (([open_pickle; st_error model_not_found_msg], Returns None), Some entry) /\
    session None ((w, ui) :: reruns) =
      (script w None ui).1 :: session (Some entry) reruns /\
    Forall2 refuses_inference reruns (session (Some entry) reruns).
Proof.
  intros Habsent. pose proof (load_model_absent w Habsent) as Hload.
  exists (mkEntry None [st_error model_not_found_msg] 0).
  split; [exact Hload | split; [| apply session_not_loaded]].
  cbn [session]. unfold script. rewrite Hload.
  destruct (_ ≫= _). reflexivity.
Qed.

Lemma C8_missing_model_file_witness :
  exists entry : CacheEntry,
    load_model (mkWorld NoFile GoodImage) None =
      (([open_pickle; st_error model_not_found_msg], Returns None), Some entry) /\
    session None
      [ (mkWorld NoFile GoodImage, asha); (good_world (const_model [1]), asha);
        (good_world (const_model [1]), nameless) ] =
      (script (mkWorld NoFile GoodImage) None asha).1 ::
      session (Some entry)
        [ (good_world (const_model [1]), asha); (good_world (const_model [1]), nameless) ] /\
    Forall2 refuses_inference
      [ (good_world (const_model [1]), asha); (good_world (const_model [1]), nameless) ]
      (session (Some entry)
         [ (good_world (const_model [1]), asha); (good_world (const_model [1]), nameless) ]).
Proof.
  apply (C8_missing_model_file (mkWorld NoFile GoodImage) asha
           [ (good_world (const_model [1]), asha); (good_world (const_model [1]), nameless) ]).
  reflexivity.
Defined.

(** The executions after a first one without model file, as they appear:
    the second with Asha's answers, the third with the name left empty. *)
Example scenario_4_later_executions :
  session None
    [ (mkWorld NoFile GoodImage, asha); (good_world (const_model [1]), asha);
      (good_world (const_model [1]), nameless) ] =
  [ ([ open_pickle; st_error model_not_found_msg; open_image; st_image;
       st_subheader page_title; st_error model_not_loaded_msg ], Returns tt);
    ([ st_error model_not_found_msg; open_image; st_image;
       st_subheader page_title; st_error model_not_loaded_msg ], Returns tt);
    ([ st_error model_not_found_msg; open_image; st_image;
       st_subheader page_title; st_error required_fields_msg ], Returns tt) ].
Proof. reflexivity. Qed.

(** * Further properties of the script *)

(** ** Loading the model *)

(** With an entry that recorded no element, as after a successful load,
    every execution is the page with the cached value. *)
Lemma session_cached (v : option Model) (hits : nat) (reruns : list (World * Widgets)) :
  session (Some (mkEntry v [] hits)) reruns = map (fun r => run r.1 v r.2) reruns.
Proof.
  revert hits. induction reruns as [|[w ui] reruns IH]; intros hits; [reflexivity |].
  cbn [session map fst snd]. rewrite script_hit.
  cbn [cached_value cached_messages cache_hits app]. rewrite IH.
  destruct (run w v ui). reflexivity.
Qed.

Lemma infer_pickle_quiet (m : Model) (f : DataFrame) (fn account_no : string) :
  pickle_reads (events (infer m f fn account_no)) = O.
Proof.
  destruct (predict m f) as [[|result rest]|e] eqn:H.
  - rewrite (infer_empty_batch _ _ _ _ H). reflexivity.
  - rewrite (infer_returns _ _ _ _ _ _ H). unfold present.
    destruct (bool_decide (result = 0)); reflexivity.
  - destruct (isinstance_Exception e) eqn:He.
    + rewrite (infer_caught _ _ _ _ _ H He). reflexivity.
    + rewrite (infer_propagates _ _ _ _ _ H He). reflexivity.
Qed.

Lemma on_submit_pickle_quiet (model : option Model) (ui : Widgets) :
  pickle_reads (events (on_submit model ui)) = O.
Proof.
  destruct (missing_required ui) eqn:Hm.
  - rewrite (on_submit_missing _ _ Hm). reflexivity.
  - destruct model as [m|].
    + rewrite (on_submit_loaded _ _ Hm). apply infer_pickle_quiet.
    + rewrite (on_submit_not_loaded _ Hm). reflexivity.
Qed.

(** [run] itself never touches the pickle file. *)
Lemma run_pickle_quiet (w : World) (model : option Model) (ui : Widgets) :
  pickle_reads (events (run w model ui)) = O.
Proof.
  destruct (outcome (logo w)) as [[]|e] eqn:Hl.
  - rewrite (run_after_logo _ _ _ Hl). cbn.
    rewrite pickle_reads_app, (proj2 (logo_quiet w)). cbn.
    destruct (submit ui); [apply on_submit_pickle_quiet | reflexivity].
  - rewrite (run_logo_raises _ _ _ _ Hl). apply logo_quiet.
Qed.

Lemma session_cached_pickle_quiet (v : option Model) (hits : nat)
    (reruns : list (World * Widgets)) :
  pickle_reads (concat (map events (session (Some (mkEntry v [] hits)) reruns))) = O.
Proof.
  rewrite session_cached.
  induction reruns as [|[w ui] reruns IH]; [reflexivity |].
  cbn [map concat fst snd]. rewrite pickle_reads_app, IH.
  unfold events at 1. fold (events (run w v ui)). rewrite run_pickle_quiet. reflexivity.
Qed.

(** X1. A failure to load that is not a [FileNotFoundError] (a damaged pickle,
    say) is neither caught nor stored: the execution ends with that
    exception right after opening the file, before anything of the page is
    shown, and the rest of the process goes on exactly like a fresh one, so
    the next execution tries the file again. *)
Theorem load_failure_not_cached (w : World) (ui : Widgets) (e : PyExc)
    (reruns : list (World * Widgets)) :
  pickle_file w = Unpicklable e ->
  isinstance_FileNotFoundError e = false ->
  load_model w None = (([open_pickle], Raises e), None) /\
  session None ((w, ui) :: reruns) = ([open_pickle], Raises e) :: session None reruns.
Proof.
  intros Hfile He.
  assert (load_model w None = (([open_pickle], Raises e), None)) as Hload.
  { unfold load_model, load_model_body, pickle_load. rewrite Hfile. cbn.
    rewrite He. reflexivity. }
  split; [exact Hload |].
  cbn [session]. unfold script. rewrite Hload. reflexivity.
Qed.

Lemma load_failure_not_cached_witness :
  session None
    [ (mkWorld (Unpicklable (mkExc (OtherException "UnpicklingError") "invalid load key")) GoodImage, asha);
      (good_world (const_model [1]), asha) ] =
  [ ([open_pickle], Raises (mkExc (OtherException "UnpicklingError") "invalid load key"));
    ([ open_pickle; open_image; st_image; st_subheader page_title;
       model_predict (mkFrame feature_columns [[1; 1; 1; 1; 0; 5000; 0; 100; 360; 2]]);
       st_success (eligible_msg "Asha" "12345678901") ], Returns tt) ].
Proof.
  destruct (load_failure_not_cached
              (mkWorld (Unpicklable (mkExc (OtherException "UnpicklingError") "invalid load key")) GoodImage)
              asha (mkExc (OtherException "UnpicklingError") "invalid load key")
              [ (good_world (const_model [1]), asha) ]) as [_ Hsession];
    [reflexivity | reflexivity |].
  rewrite Hsession. reflexivity.
Defined.

(** X2. When the first execution of a process finds a readable model file, the
    file is opened exactly once in the whole process: the first execution
    opens it and runs the page with the model, and every later execution
    runs the page with that same model, whatever has become of the file. *)
Theorem model_read_once (w : World) (ui : Widgets) (m : Model)
    (reruns : list (World * Widgets)) :
  pickle_file w = Pickled m ->
  session None ((w, ui) :: reruns) =
    (open_pickle :: events (run w (Some m) ui), outcome (run w (Some m) ui)) ::
    map (fun r => run r.1 (Some m) r.2) reruns /\
  pickle_reads (concat (map events (session None ((w, ui) :: reruns)))) = 1%nat.
Proof.
  intros Hfile.
  pose proof (load_model_present w m Hfile) as Hload.
  assert (session None ((w, ui) :: reruns) =
          (open_pickle :: events (run w (Some m) ui), outcome (run w (Some m) ui)) ::
          session (Some (mkEntry (Some m) [] 0)) reruns) as Hsession.
  { cbn [session]. unfold script. rewrite Hload. cbn.
    destruct (run w (Some m) ui). reflexivity. }
  split.
  - rewrite Hsession, session_cached. reflexivity.
  - rewrite Hsession. cbn [map concat]. rewrite pickle_reads_app.
    rewrite session_cached_pickle_quiet. cbn. rewrite run_pickle_quiet. reflexivity.
Qed.

Lemma model_read_once_witness :
  pickle_reads (concat (map events
    (session None [ (good_world (const_model [1]), asha);
                    (mkWorld NoFile GoodImage, asha);
                    (good_world (const_model [0]), asha) ]))) = 1%nat.
Proof.
  apply (model_read_once (good_world (const_model [1])) asha (const_model [1])
           [ (mkWorld NoFile GoodImage, asha); (good_world (const_model [0]), asha) ]).
  reflexivity.
Defined.

(** ** The logo *)

Lemma after_title_run (w : World) (model : option Model) (ui : Widgets) :
  outcome (logo w) = Returns tt ->
  run w model ui =
  (events (logo w) ++ st_subheader page_title :: events (after_title model ui),
   outcome (after_title model ui)).
Proof. apply run_after_logo. Qed.

(** X3. What the logo code decides for the page.  A missing image costs an
    error notice and nothing else: title and submission are handled as with
    the image.  Any other failure to open or resize the image, which
    [except FileNotFoundError] does not catch, ends [run] at once: no title
    is shown and a pressed button is not handled. *)
Theorem run_by_logo (w : World) (model : option Model) (ui : Widgets) :
  match image_file w with
  | GoodImage =>
      run w model ui =
      ([open_image; st_image; st_subheader page_title] ++ events (after_title model ui),
       outcome (after_title model ui))
  | NoImage =>
      run w model ui =
      ([open_image; st_error image_not_found_msg; st_subheader page_title]
         ++ events (after_title model ui),
       outcome (after_title model ui))
  | BadImage e =>
      if isinstance_FileNotFoundError e
      then run w model ui =
           ([open_image; st_error image_not_found_msg; st_subheader page_title]
              ++ events (after_title model ui),
            outcome (after_title model ui))
      else run w model ui = ([open_image], Raises e)
  end.
Proof.
  destruct (image_file w) as [|e|] eqn:Himg.
  - rewrite after_title_run; unfold logo; rewrite Himg; reflexivity.
  - destruct (isinstance_FileNotFoundError e) eqn:He.
    + rewrite after_title_run; unfold logo; rewrite Himg; cbn; rewrite He; reflexivity.
    + rewrite (run_logo_raises w model ui e); unfold logo; rewrite Himg; cbn;
        rewrite He; reflexivity.
  - rewrite after_title_run; unfold logo; rewrite Himg; reflexivity.
Qed.

(** ** When the classifier is entered *)

Lemma on_submit_predict_calls (model : option Model) (ui : Widgets) :
  predict_calls (events (on_submit model ui)) =
  match model with
  | Some _ => if missing_required ui then [] else [mkFrame feature_columns (values ui)]
  | None => []
  end.
Proof.
  destruct (missing_required ui) eqn:Hm.
  - rewrite (on_submit_missing _ _ Hm). destruct model; reflexivity.
  - destruct model as [m|].
    + rewrite (on_submit_loaded _ _ Hm). apply infer_predict_calls.
    + rewrite (on_submit_not_loaded _ Hm). reflexivity.
Qed.

(** X4. In one execution of [run] the classifier is entered at most once, with
    the feature record of the widgets; and it is entered exactly when the
    logo code returned, the button was pressed, account number and name are
    non-empty and a model is loaded. *)
Theorem predict_entered_iff (w : World) (model : option Model) (ui : Widgets) :
  (predict_calls (events (run w model ui)) = [] \/
   predict_calls (events (run w model ui)) = [mkFrame feature_columns (values ui)]) /\
  (predict_calls (events (run w model ui)) <> [] <->
   outcome (logo w) = Returns tt /\ submit ui = true /\
   account_no ui <> "" /\ fn ui <> "" /\ model <> None).
Proof.
  destruct (outcome (logo w)) as [[]|e] eqn:Hl.
  - rewrite (run_after_logo _ _ _ Hl). cbn [events fst].
    rewrite predict_calls_app, (proj1 (logo_quiet w)). cbn [app predict_calls].
    destruct (submit ui); cbn [events fst predict_calls].
    + fold (events (on_submit model ui)). rewrite on_submit_predict_calls.
      destruct model as [m|]; [destruct (missing_required ui) eqn:Hm |].
      * split; [left; reflexivity |]. split; [congruence |].
        intros (_ & _ & Hacc & Hfn & _).
        assert (missing_required ui = false) by (apply missing_required_false; auto).
        congruence.
      * apply missing_required_false in Hm as [Hacc Hfn].
        split; [right; reflexivity |]. split; [| discriminate].
        intros _. repeat split; auto; discriminate.
      * split; [left; reflexivity |]. split; [congruence |].
        intros (_ & _ & _ & _ & H). exfalso. apply H. reflexivity.
    + cbn. split; [left; reflexivity |]. split; [congruence |].
      intros (_ & H & _). discriminate.
  - rewrite (run_logo_raises _ _ _ _ Hl), (proj1 (logo_quiet w)).
    split; [left; reflexivity |]. split; [congruence |].
    intros (H & _). discriminate.
Qed.

(** ** What can leave [run] *)

Lemma on_submit_raises (model : option Model) (ui : Widgets) (e : PyExc) :
  outcome (on_submit model ui) = Raises e ->
  isinstance_Exception e = false /\
  exists m, model = Some m /\
    predict m (mkFrame feature_columns (values ui)) = Raises e.
Proof.
  destruct (missing_required ui) eqn:Hm.
  - rewrite (on_submit_missing _ _ Hm). discriminate.
  - destruct model as [m|].
    + rewrite (on_submit_loaded _ _ Hm).
      destruct (predict m (mkFrame feature_columns (values ui)))
        as [[|result rest]|e'] eqn:H.
      * rewrite (infer_empty_batch _ _ _ _ H). discriminate.
      * rewrite (infer_returns _ _ _ _ _ _ H). discriminate.
      * destruct (isinstance_Exception e') eqn:He.
        -- rewrite (infer_caught _ _ _ _ _ H He). discriminate.
        -- rewrite (infer_propagates _ _ _ _ _ H He). cbn. intros [= <-].
           split; [exact He | exists m; auto].
    + rewrite (on_submit_not_loaded _ Hm). discriminate.
Qed.

Lemma logo_raises_inv (w : World) (e : PyExc) :
  outcome (logo w) = Raises e ->
  image_file w = BadImage e /\ isinstance_FileNotFoundError e = false.
Proof.
  unfold logo. destruct (image_file w) as [|e'|]; cbn; try discriminate.
  destruct (isinstance_FileNotFoundError e') eqn:He; cbn; [discriminate |].
  intros [= <-]. auto.
Qed.

(** X5. An exception leaves [run] only in two ways: the logo code raised it
    (then it is no [FileNotFoundError]), or the classifier raised it during
    prediction and it does not derive from [Exception].  In particular
    building the feature record and reading the first label never make
    [run] fail. *)
Theorem run_raises_only (w : World) (model : option Model) (ui : Widgets)
    (e : PyExc) :
  outcome (run w model ui) = Raises e ->
  (image_file w = BadImage e /\ isinstance_FileNotFoundError e = false) \/
  (submit ui = true /\ isinstance_Exception e = false /\
   exists m, model = Some m /\
     predict m (mkFrame feature_columns (values ui)) = Raises e).
Proof.
  destruct (outcome (logo w)) as [[]|e'] eqn:Hl.
  - rewrite (run_after_logo _ _ _ Hl). cbn [outcome snd].
    destruct (submit ui); [| discriminate].
    intros H. right. split; [reflexivity | apply on_submit_raises, H].
  - rewrite (run_logo_raises _ _ _ _ Hl), Hl. intros [= <-].
    left. apply logo_raises_inv, Hl.
Qed.

Lemma run_raises_only_witness :
  (image_file (good_world (const_model [1])) = BadImage (mkExc SystemExit "1") /\
   isinstance_FileNotFoundError (mkExc SystemExit "1") = false) \/
  (submit asha = true /\ isinstance_Exception (mkExc SystemExit "1") = false /\
   exists m, Some (raising_model (mkExc SystemExit "1")) = Some m /\
     predict m (mkFrame feature_columns (values asha)) = Raises (mkExc SystemExit "1")).
Proof.
  apply (run_raises_only (good_world (const_model [1]))
           (Some (raising_model (mkExc SystemExit "1"))) asha (mkExc SystemExit "1")).
  reflexivity.
Defined.

(** ** The answer to a submission *)



Lemma infer_notices (m : Model) (f : DataFrame) (fn account_no : string) :
  match outcome (infer m f fn account_no) with
  | Returns _ => exists notice, notices (events (infer m f fn account_no)) = [notice]
  | Raises _ => notices (events (infer m f fn account_no)) = []
  end.
Proof.
  destruct (predict m f) as [[|result rest]|e] eqn:H.
  - rewrite (infer_empty_batch _ _ _ _ H). cbn. eauto.
  - rewrite (infer_returns _ _ _ _ _ _ H). unfold present.
    destruct (bool_decide (result = 0)); cbn; eauto.
  - destruct (isinstance_Exception e) eqn:He.
    + rewrite (infer_caught _ _ _ _ _ H He). cbn. eauto.
    + rewrite (infer_propagates _ _ _ _ _ H He). reflexivity.
Qed.

(** X7. The submit handler answers with exactly one notice, error or success,
    whenever it returns; when it does not return, it has shown none and the
    exception that leaves it does not derive from [Exception]. *)
Theorem one_notice_per_submission (model : option Model) (ui : Widgets) :
  match outcome (on_submit model ui) with
  | Returns _ => exists notice, notices (events (on_submit model ui)) = [notice]
  | Raises e =>
      notices (events (on_submit model ui)) = [] /\ isinstance_Exception e = false
  end.
Proof.
  destruct (outcome (on_submit model ui)) as [[]|e] eqn:Hout.
  - destruct (missing_required ui) eqn:Hm.
    + rewrite (on_submit_missing _ _ Hm). cbn. eauto.
    + destruct model as [m|].
      * rewrite (on_submit_loaded _ _ Hm) in *.
        pose proof (infer_notices m (mkFrame feature_columns (values ui))
                      (fn ui) (account_no ui)) as Hn.
        rewrite Hout in Hn. exact Hn.
      * rewrite (on_submit_not_loaded _ Hm). cbn. eauto.
  - split; [| eapply on_submit_raises, Hout].
    destruct (missing_required ui) eqn:Hm.
    + rewrite (on_submit_missing _ _ Hm) in Hout. discriminate.
    + destruct model as [m|].
      * rewrite (on_submit_loaded _ _ Hm) in *.
        pose proof (infer_notices m (mkFrame feature_columns (values ui))
                      (fn ui) (account_no ui)) as Hn.
        rewrite Hout in Hn. exact Hn.
      * rewrite (on_submit_not_loaded _ Hm) in Hout. discriminate.
Qed.

Lemma logo_no_success (w : World) (msg : string) :
  ~ In (st_success msg) (events (logo w)).
Proof.
  unfold logo. destruct (image_file w) as [|e|]; cbn.
  - intros [? | [? | []]]; discriminate.
  - destruct (isinstance_FileNotFoundError e); cbn.
    + intros [? | [? | []]]; discriminate.
    + intros [? | []]; discriminate.
  - intros [? | [? | []]]; discriminate.
Qed.

Lemma logo_no_decision (w : World) (fn account_no : string) :
  ~ In (st_error (not_eligible_msg fn account_no)) (events (logo w)).
Proof.
  unfold logo. destruct (image_file w) as [|e|]; cbn.
  - intros [? | [? | []]]; discriminate.
  - destruct (isinstance_FileNotFoundError e); cbn.
    + intros [? | [? | []]]; discriminate.
    + intros [? | []]; discriminate.
  - intros [? | [? | []]]; discriminate.
Qed.

(** What of [run] can hold a notice of the submit handler. *)
Lemma run_event_of_handler (w : World) (model : option Model) (ui : Widgets)
    (ev : Event) :
  In ev (events (run w model ui)) ->
  In ev (events (logo w)) \/ ev = st_subheader page_title \/
  (submit ui = true /\ In ev (events (on_submit model ui))).
Proof.
  destruct (outcome (logo w)) as [[]|e] eqn:Hl.
  - rewrite (run_after_logo _ _ _ Hl). cbn [events fst].
    rewrite in_app_iff. cbn [In]. intros [H | [H | H]]; auto.
    destruct (submit ui); [auto | destruct H].
  - rewrite (run_logo_raises _ _ _ _ Hl). auto.
Qed.

(** X8. The success notice is shown only for a decision of the classifier: if
    [run] shows one, then the button was pressed, account number and name
    are non-empty, a model is loaded, its [predict] returned a batch whose
    first label is not 0, and the notice is the congratulation for this
    name and account number. *)
Theorem success_only_from_model (w : World) (model : option Model) (ui : Widgets)
    (msg : string) :
  In (st_success msg) (events (run w model ui)) ->
  submit ui = true /\ account_no ui <> "" /\ fn ui <> "" /\
  msg = eligible_msg (fn ui) (account_no ui) /\
  exists m result rest,
    model = Some m /\
    predict m (mkFrame feature_columns (values ui)) = Returns (result :: rest) /\
    result <> 0.
Proof.
  intros Hin. apply run_event_of_handler in Hin as [H | [H | [Hs H]]].
  - destruct (logo_no_success _ _ H).
  - discriminate.
  - destruct (missing_required ui) eqn:Hm.
    { rewrite (on_submit_missing _ _ Hm) in H. destruct H as [? | []]; discriminate. }
    destruct model as [m|].
    2: { rewrite (on_submit_not_loaded _ Hm) in H. destruct H as [? | []]; discriminate. }
    rewrite (on_submit_loaded _ _ Hm) in H.
    apply missing_required_false in Hm as [Hacc Hfn].
    destruct (predict m (mkFrame feature_columns (values ui)))
      as [[|result rest]|e] eqn:Hp.
    + rewrite (infer_empty_batch _ _ _ _ Hp) in H.
      destruct H as [? | [? | []]]; discriminate.
    + rewrite (infer_returns _ _ _ _ _ _ Hp) in H.
      destruct (decide (result = 0)) as [-> | Hnz].
      * rewrite present_zero in H. destruct H as [? | [? | []]]; discriminate.
      * rewrite (present_nonzero _ _ _ Hnz) in H.
        destruct H as [? | [[= <-] | []]]; [discriminate |].
        repeat split; auto. exists m, result, rest. auto.
    + destruct (isinstance_Exception e) eqn:He.
      * rewrite (infer_caught _ _ _ _ _ Hp He) in H.
        destruct H as [? | [? | []]]; discriminate.
      * rewrite (infer_propagates _ _ _ _ _ Hp He) in H.
        destruct H as [? | []]; discriminate.
Qed.

Lemma success_only_from_model_witness :
  submit asha = true /\ account_no asha <> "" /\ fn asha <> "" /\
  eligible_msg "Asha" "12345678901" = eligible_msg (fn asha) (account_no asha) /\
  exists m result rest,
    Some (const_model [1]) = Some m /\
    predict m (mkFrame feature_columns (values asha)) = Returns (result :: rest) /\
    result <> 0.
Proof.
  apply (success_only_from_model (good_world (const_model [1]))
           (Some (const_model [1])) asha (eligible_msg "Asha" "12345678901")).
  cbn. do 4 right. left. reflexivity.
Defined.

(** X9. The not-eligible notice, too, is shown only for a decision of the
    classifier: if [run] shows it, for whatever name and account number,
    then the button was pressed, account number and name are non-empty, a
    model is loaded and its [predict] returned a batch whose first label
    is 0. *)
Theorem refusal_only_from_model (w : World) (model : option Model) (ui : Widgets)
    (name account : string) :
  In (st_error (not_eligible_msg name account)) (events (run w model ui)) ->
  submit ui = true /\ account_no ui <> "" /\ fn ui <> "" /\
  exists m rest,
    model = Some m /\
    predict m (mkFrame feature_columns (values ui)) = Returns (0 :: rest).
Proof.
  intros Hin. apply run_event_of_handler in Hin as [H | [H | [Hs H]]].
  - destruct (logo_no_decision _ _ _ H).
  - discriminate.
  - destruct (missing_required ui) eqn:Hm.
    { rewrite (on_submit_missing _ _ Hm) in H. destruct H as [? | []]; discriminate. }
    destruct model as [m|].
    2: { rewrite (on_submit_not_loaded _ Hm) in H. destruct H as [? | []]; discriminate. }
    rewrite (on_submit_loaded _ _ Hm) in H.
    apply missing_required_false in Hm as [Hacc Hfn].
    destruct (predict m (mkFrame feature_columns (values ui)))
      as [[|result rest]|e] eqn:Hp.
    + rewrite (infer_empty_batch _ _ _ _ Hp) in H.
      destruct H as [? | [? | []]]; discriminate.
    + rewrite (infer_returns _ _ _ _ _ _ Hp) in H.
      destruct (decide (result = 0)) as [-> | Hnz].
      * repeat split; auto. exists m, rest. auto.
      * rewrite (present_nonzero _ _ _ Hnz) in H.
        destruct H as [? | [? | []]]; discriminate.
    + destruct (isinstance_Exception e) eqn:He.
      * rewrite (infer_caught _ _ _ _ _ Hp He) in H.
        destruct H as [? | [? | []]]; discriminate.
      * rewrite (infer_propagates _ _ _ _ _ Hp He) in H.
        destruct H as [? | []]; discriminate.
Qed.

Lemma refusal_only_from_model_witness :
  submit asha = true /\ account_no asha <> "" /\ fn asha <> "" /\
  exists m rest,
    Some (const_model [0; 1]) = Some m /\
    predict m (mkFrame feature_columns (values asha)) = Returns (0 :: rest).
Proof.
  apply (refusal_only_from_model (good_world (const_model [0; 1]))
           (Some (const_model [0; 1])) asha "Asha" "12345678901").
  cbn. do 4 right. left. reflexivity.
Defined.

(** ** The select boxes *)

Lemma range_len_spec (display : list string) (x : Z) :
  In x (range_len display) <-> 0 <= x < Z.of_nat (length display).
Proof.
  unfold range_len. rewrite <- list_elem_of_In, elem_of_seqZ. lia.
Qed.

Lemma tuple_getitem_option (t : list string) (x : Z) :
  In x (range_len t) ->
  exists label, t !! Z.to_nat x = Some label /\ tuple_getitem t x = Returns label.
Proof.
  intros Hx. apply range_len_spec in Hx.
  destruct (lookup_lt_is_Some_2 t (Z.to_nat x)) as [label Hl]; [lia |].
  exists label. split; [exact Hl |].
  unfold tuple_getitem. cbv zeta.
  replace (x <? 0) with false by lia.
  replace ((0 <=? x) && (x <? Z.of_nat (length t))) with true by lia.
  rewrite Hl. reflexivity.
Qed.

Lemma select_boxes_NoDup (display : list string) :
  In display select_boxes -> NoDup display.
Proof.
  intros Hin. cbn in Hin.
  repeat (destruct Hin as [<- | Hin];
          [apply (bool_decide_unpack _); vm_compute; exact I |]).
  destruct Hin.
Qed.

(** X10. For each of the seven select boxes and each of its options
    [range(len(display))], [format_func] returns the label at that position
    and never raises; and two different options of one box never get the
    same label, so what the user picks determines the code. *)
Theorem format_func_one_to_one (display : list string) (x y : Z) :
  In display select_boxes ->
  In x (range_len display) ->
  In y (range_len display) ->
  (exists label, display !! Z.to_nat x = Some label /\
                 format_func display x = Returns label) /\
  (format_func display x = format_func display y -> x = y).
Proof.
  intros Hbox Hx Hy.
  destruct (tuple_getitem_option display x Hx) as (lx & Hlx & Hfx).
  destruct (tuple_getitem_option display y Hy) as (ly & Hly & Hfy).
  split; [exists lx; auto |].
  unfold format_func. rewrite Hfx, Hfy. intros [= <-].
  apply range_len_spec in Hx, Hy.
  pose proof (NoDup_lookup display _ _ _ (select_boxes_NoDup _ Hbox) Hlx Hly).
  lia.
Qed.

Lemma format_func_one_to_one_witness :
  (exists label, dep_display !! Z.to_nat 3 = Some label /\
                 format_func dep_display 3 = Returns label) /\
  (format_func dep_display 3 = format_func dep_display 0 -> 3 = 0).
Proof.
  apply (format_func_one_to_one dep_display 3 0).
  - cbn. do 2 right. left. reflexivity.
  - apply range_len_spec. cbn. lia.
  - apply range_len_spec. cbn. lia.
Defined.

(** X11. The options of the Loan Duration box are exactly the keys of
    [duration_map], so the default of [duration_map.get] is never used for a
    value the box returns; and on these options a later option gives a
    strictly larger term. *)
Theorem duration_options_are_keys :
  (forall x : Z, In x (range_len dur_display) <-> is_Some (duration_map !! x)) /\
  (forall x y : Z,
     In x (range_len dur_display) -> In y (range_len dur_display) ->
     x < y -> duration_value x < duration_value y).
Proof.
  assert (forall x, In x (range_len dur_display) ->
                    x = 0 \/ x = 1 \/ x = 2 \/ x = 3 \/ x = 4) as Hopt.
  { intros x Hx. apply range_len_spec in Hx. cbn in Hx. lia. }
  split.
  - intros x. split.
    + intros Hx. destruct (Hopt x Hx) as [-> | [-> | [-> | [-> | ->]]]];
        vm_compute; eauto.
    + intros [v Hv]. apply range_len_spec. cbn.
      destruct (decide (0 <= x <= 4)) as [? | Hout]; [lia |].
      unfold duration_map in Hv.
      rewrite !lookup_insert_ne in Hv by lia.
      rewrite lookup_singleton_ne in Hv by lia. discriminate.
  - intros x y Hx Hy Hlt.
    destruct (Hopt x Hx) as [-> | [-> | [-> | [-> | ->]]]];
      destruct (Hopt y Hy) as [-> | [-> | [-> | [-> | ->]]]];
      try lia; vm_compute; reflexivity.
Qed.

(** ** The feature record under the promises of the widgets *)

Lemma offered_spec (display : list string) (x : Z) :
  offered display x = true -> 0 <= x < Z.of_nat (length display).
Proof.
  unfold offered. intros H. apply bool_decide_eq_true_1 in H.
  apply range_len_spec, list_elem_of_In, H.
Qed.

Lemma duration_value_in_table (d : Z) :
  In (duration_value d) [60; 180; 240; 360; 480].
Proof.
  destruct (decide (0 <= d <= 4)) as [Hin | Hout].
  - assert (d = 0 \/ d = 1 \/ d = 2 \/ d = 3 \/ d = 4) as Hd by lia.
    destruct Hd as [-> | [-> | [-> | [-> | ->]]]]; simpl; tauto.
  - rewrite (duration_value_outside d Hout). simpl; tauto.
Qed.

Lemma values_within_schema (ui : Widgets) :
  widget_contract ui = true ->
  Forall (fun row => row_in_schema row = true) (values ui).
Proof.
  unfold widget_contract. rewrite !andb_true_iff, !Z.leb_le.
  intros (((((((((((_ & _) & Hg) & Hma) & Hde) & Hed) & Hem) & Hai) & Hci) & Hla) & Hdu) & Har).
  apply offered_spec in Hg, Hma, Hde, Hed, Hem, Hdu, Har. cbn in *.
  unfold values. constructor; [| constructor].
  unfold row_in_schema. rewrite !andb_true_iff, !Z.leb_le.
  repeat split; try lia.
  apply bool_decide_eq_true_2, list_elem_of_In, duration_value_in_table.
Qed.

(** X12. When the widgets keep their promises (a select box returns one of its
    options, a number input nothing below its [min_value=0]), every feature
    record that reaches the classifier has the ten columns and one row, and
    each cell lies in the range of its column: 0-1 for Gender, Married,
    Education and Self_Employed, 0-3 for Dependents, 0-2 for Property_Area,
    non-negative incomes and loan amount, and a term among 60, 180, 240,
    360, 480. *)
Theorem features_within_schema (w : World) (model : option Model) (ui : Widgets)
    (features : DataFrame) :
  widget_contract ui = true ->
  In features (predict_calls (events (run w model ui))) ->
  columns features = feature_columns /\
  length (rows features) = 1%nat /\
  Forall (fun row => row_in_schema row = true) (rows features).
Proof.
  intros Hc Hin.
  destruct (run_predict_calls w model ui) as [Hcalls | Hcalls];
    rewrite Hcalls in Hin; [destruct Hin |].
  rewrite on_submit_predict_calls in Hin.
  destruct model as [m|]; [| destruct Hin].
  destruct (missing_required ui); [destruct Hin |].
  destruct Hin as [<- | []].
  repeat split. apply values_within_schema, Hc.
Qed.

Lemma features_within_schema_witness :
  columns (mkFrame feature_columns [[1; 1; 1; 1; 0; 5000; 0; 100; 360; 2]]) = feature_columns /\
  length (rows (mkFrame feature_columns [[1; 1; 1; 1; 0; 5000; 0; 100; 360; 2]])) = 1%nat /\
  Forall (fun row => row_in_schema row = true)
    (rows (mkFrame feature_columns [[1; 1; 1; 1; 0; 5000; 0; 100; 360; 2]])).
Proof.
  apply (features_within_schema (good_world (const_model [1])) (Some (const_model [1])) asha).
  - reflexivity.
  - cbn. left. reflexivity.
Defined.
